(** * serverless-plugin-datadog: handler classification, layer merging and
    environment defaults (src/layer.ts, src/util.ts, src/env.ts).

    Shallow embedding.  The host tool's in-memory configuration is modelled
    as follows:
    - a [FunctionDefinition] is a record with the three fields the code reads or
      writes ([handler], [runtime], [layers]); an absent optional field is [None];
    - [service.functions] is the list returned by [Object.entries], i.e. the
      function names in insertion order, each with its descriptor;
    - the descriptor objects that [applyLayers] mutates in place live in a heap
      [gmap string FunctionDefinition] keyed by the function name, and a
      [HandlerInfo] refers to its descriptor by that key ([info_handler]), so
      two records naming the same key alias the same object;
    - JS objects used as dictionaries ([runtimeLookup], [LayerJSON.regions] and
      its per-region tables) are stdpp [gmap]s of their own keys; a read
      [obj[key]] or a test [key in obj] on them also sees the members every plain
      object inherits from [Object.prototype] ([constructor], [toString], ...),
      which are built-in functions or objects of the engine, not [undefined];
    - the values the code stores in [HandlerInfo.type] and in a layer list are
      therefore a [RuntimeType] or a layer string, or such a built-in value;
    - [provider.environment] is a [gmap] too; the code only reads it at the five
      [DD_...] keys, none of which [Object.prototype] has; a key that is absent
      and a key whose value is [undefined] are both a [None] lookup, the only
      thing the code distinguishes ([=== undefined]);
    - [fs.existsSync] is a parameter [existsSync : string -> bool] (the state of
      the file system at classification time). *)

From Stdlib Require Import String Ascii Bool.
From stdpp Require Import base gmap strings list.

Local Open Scope string_scope.

(* ------------------------------------------------------------------ *)
(** ** Property reads on plain JS objects *)

(** The members a plain object inherits from [Object.prototype], each with the
    built-in value a read returns, named by its standard path: the getter of
    [__proto__] returns [Object.prototype] itself, [constructor] is [Object],
    the others are the methods [Object.prototype.<key>]. *)
Definition objectPrototypeMember (k : string) : option string :=
  if decide (k = "constructor") then Some "Object"
  else if decide (k = "__proto__") then Some "Object.prototype"
  else if decide (k ∈ ["__defineGetter__"; "__defineSetter__"; "hasOwnProperty";
                       "__lookupGetter__"; "__lookupSetter__"; "isPrototypeOf";
                       "propertyIsEnumerable"; "toString"; "valueOf"; "toLocaleString"])
  then Some ("Object.prototype." ++ k)
  else None.

(* ------------------------------------------------------------------ *)
(** ** src/layer.ts: data model *)

Inductive RuntimeType := NODE | NODE_TS | NODE_ES6 | PYTHON | UNSUPPORTED.

#[global] Instance RuntimeType_eq_dec : EqDecision RuntimeType.
Proof. solve_decision. Defined.

(** What [HandlerInfo.type] can hold: a [RuntimeType], or the built-in value
    [runtimeLookup[runtime]] returns for an inherited member. *)
Inductive TypeValue := RT (t : RuntimeType) | TypeBuiltin (name : string).
Coercion RT : RuntimeType >-> TypeValue.

#[global] Instance TypeValue_eq_dec : EqDecision TypeValue.
Proof. solve_decision. Defined.

(** An element of a layer list: a layer ARN string, or a non-string value of
    the engine that [regionRuntimes[runtime]] returned, by its name (two names
    are equal exactly when the values are the same, as [Set] compares them). *)
Inductive LayerValue := LayerARN (arn : string) | LayerBuiltin (name : string).
Coercion LayerARN : string >-> LayerValue.

#[global] Instance LayerValue_eq_dec : EqDecision LayerValue.
Proof. solve_decision. Defined.

Record FunctionDefinition := mkFunctionDefinition {
  handler : string;
  runtime : option string;
  layers : option (list LayerValue);
}.

(** [interface HandlerInfo { name; type; handler; runtime? }]; the [handler]
    field points to the descriptor object, here its heap key. *)
Record HandlerInfo := mkHandlerInfo {
  info_name : string;
  info_type : TypeValue;
  info_handler : string;
  info_runtime : option string;
}.

Record LayerJSON := mkLayerJSON {
  regions : gmap string (gmap string string);
}.

Definition runtimeLookup : gmap string RuntimeType :=
  list_to_map [("nodejs10.x", NODE); ("nodejs12.x", NODE); ("nodejs8.10", NODE);
               ("python2.7", PYTHON); ("python3.6", PYTHON); ("python3.7", PYTHON);
               ("python3.8", PYTHON)].

(** [runtimeLookup[runtime]]: the own entry, else the inherited member; [None]
    ([undefined]) exactly when [runtime in runtimeLookup] is false. *)
Definition runtimeLookupGet (r : string) : option TypeValue :=
  match runtimeLookup !! r with
  | Some t => Some (RT t)
  | None => TypeBuiltin <$> objectPrototypeMember r
  end.

(** The parts of [Service] the plugin touches. *)
Inductive JSValue := JSString (s : string) | JSBool (b : bool) | JSOther.

Record Provider := mkProvider {
  region : string;
  environment : option (gmap string JSValue);
}.

Record Service := mkService {
  provider : Provider;
  functions : list (string * FunctionDefinition);
  plugins : option (list string);
}.

(* ------------------------------------------------------------------ *)
(** ** src/util.ts: getHandlerPath *)

(** [String.prototype.split(".")]: the segments between dots, [""] for the
    empty string, an empty segment on each side of a leading/trailing dot. *)
Fixpoint split_dot_aux (s : string) (cur : string) : list string :=
  match s with
  | EmptyString => [cur]
  | String c s' =>
      if Ascii.eqb c "." then cur :: split_dot_aux s' ""
      else split_dot_aux s' (String.append cur (String c EmptyString))
  end.

Definition split_dot (s : string) : list string := split_dot_aux s "".

(** [Array.prototype.join(".")] *)
Fixpoint join_dot (l : list string) : string :=
  match l with
  | [] => ""
  | [x] => x
  | x :: r => String.append x (String.append "." (join_dot r))
  end.

Record HandlerPath := mkHandlerPath { method : string; filename : string }.

(** [getHandlerPath(handlerInfo)] reads [handlerInfo.handler.handler]; it is
    given that descriptor here. *)
Definition getHandlerPath (fd : FunctionDefinition) : option HandlerPath :=
  let handlerfile := handler fd in
  let parts := split_dot handlerfile in
  if Nat.ltb (length parts) 2 then None
  else Some {| method := List.last parts ""; filename := join_dot (removelast parts) |}.

(* ------------------------------------------------------------------ *)
(** ** src/layer.ts: findHandlers *)

Definition hasWebpackPlugin (service : Service) : bool :=
  match plugins service with
  | None => false
  | Some ps => existsb (fun plugin => String.eqb plugin "serverless-webpack") ps
  end.

(** [let { runtime } = handler; if (runtime === undefined) runtime = defaultRuntime;] *)
Definition effectiveRuntime (fdef : FunctionDefinition) (defaultRuntime : option string)
    : option string :=
  match runtime fdef with None => defaultRuntime | Some r => Some r end.

Section FindHandlers.
(** [fs.existsSync] at classification time *)
Variable existsSync : string -> bool.

(** The body of the [map] callback for one entry [[name, handler]];
    [None] is the [return;] that the [filter] removes.  The test
    [runtime in runtimeLookup] and the read [runtimeLookup[runtime]] are the
    one read [runtimeLookupGet runtime]. *)
Definition findHandler
    (service : Service) (defaultRuntime : option string)
    (defaultNodeRuntime : option RuntimeType)
    (name : string) (fdef : FunctionDefinition) : option HandlerInfo :=
  let rt := effectiveRuntime fdef defaultRuntime in
  let unsupported := {| info_name := name; info_type := UNSUPPORTED;
                        info_handler := name; info_runtime := rt |} in
  match rt with
  | None => Some unsupported
  | Some r =>
      match runtimeLookupGet r with
      | None => Some unsupported
      | Some ty =>
          let mk (t : TypeValue) := {| info_name := name; info_type := t;
                                       info_handler := name; info_runtime := rt |} in
          if decide (ty = RT NODE) then
            match getHandlerPath fdef with
            | None => None
            | Some hp =>
                match defaultNodeRuntime with
                | None =>
                    let t1 :=
                      if existsSync (String.append "./" (String.append (filename hp) ".es.js"))
                         || existsSync (String.append "./" (String.append (filename hp) ".mjs"))
                         || hasWebpackPlugin service
                      then RT NODE_ES6 else ty in
                    let t2 :=
                      if existsSync (String.append "./" (String.append (filename hp) ".ts"))
                      then RT NODE_TS else t1 in
                    Some (mk t2)
                | Some d => Some (mk (RT d))
                end
            end
          else Some (mk ty)
      end
  end.

Definition findHandlers (service : Service) (defaultRuntime : option string)
    (defaultNodeRuntime : option RuntimeType) : list HandlerInfo :=
  omap (fun '(name, fdef) => findHandler service defaultRuntime defaultNodeRuntime name fdef)
       (functions service).
End FindHandlers.

(* ------------------------------------------------------------------ *)
(** ** src/layer.ts: applyLayers *)

(** What [layers.regions[region]] returns: an own per-region table, or the
    inherited built-in value of [Object.prototype] named by [region]. *)
Inductive RegionValue := RegionTable (rr : gmap string string) | RegionBuiltin (name : string).

Definition regionsGet (layersJ : LayerJSON) (region : string) : option RegionValue :=
  match regions layersJ !! region with
  | Some rr => Some (RegionTable rr)
  | None => RegionBuiltin <$> objectPrototypeMember region
  end.

Definition getLayers (fd : FunctionDefinition) : list LayerValue :=
  match layers fd with None => [] | Some l => l end.

Definition setLayers (fd : FunctionDefinition) (l : list LayerValue) : FunctionDefinition :=
  {| handler := handler fd; runtime := runtime fd; layers := Some l |}.

(** [new Set(currentLayers).has(layerARN)] *)
Definition set_has (l : list LayerValue) (x : LayerValue) : bool :=
  existsb (fun y => bool_decide (y = x)) l.

Section ApplyLayers.
(** [builtinGet name key]: the property [key] (own or inherited) of the
    engine's built-in value [name], [None] when it is [undefined].  These
    properties depend on the JavaScript engine and are left open. *)
Variable builtinGet : string -> string -> option LayerValue.

(** [regionRuntimes[runtime]] *)
Definition regionRuntimesGet (regionRuntimes : RegionValue) (r : string) : option LayerValue :=
  match regionRuntimes with
  | RegionTable rr =>
      match rr !! r with
      | Some arn => Some (LayerARN arn)
      | None => LayerBuiltin <$> objectPrototypeMember r
      end
  | RegionBuiltin b => builtinGet b r
  end.

(** One iteration of the [for] loop, on the heap of descriptors. *)
Definition applyLayer (regionRuntimes : RegionValue)
    (heap : gmap string FunctionDefinition) (h : HandlerInfo) : gmap string FunctionDefinition :=
  if decide (info_type h = RT UNSUPPORTED) then heap
  else
    let layerARN := match info_runtime h with
                    | Some r => regionRuntimesGet regionRuntimes r
                    | None => None
                    end in
    match layerARN with
    | None => heap
    | Some arn =>
        match heap !! info_handler h with
        | None => heap
        | Some fd =>
            let currentLayers := getLayers fd in
            let currentLayers' :=
              if set_has currentLayers arn then currentLayers
              else app currentLayers [arn] in
            <[info_handler h := setLayers fd currentLayers']> heap
        end
    end.

Definition applyLayers (region : string) (handlers : list HandlerInfo) (layersJ : LayerJSON)
    (heap : gmap string FunctionDefinition) : gmap string FunctionDefinition :=
  match regionsGet layersJ region with
  | None => heap
  | Some regionRuntimes => fold_left (applyLayer regionRuntimes) handlers heap
  end.
End ApplyLayers.
(* ------------------------------------------------------------------ *)
(** ** src/env.ts: setEnvConfiguration *)

Record Configuration := mkConfiguration {
  addLayers : bool;
  apiKey : option string;
  apiKMSKey : option string;
  site : string;
  logLevel : string;
  flushMetricsToLogs : bool;
  nodeModuleType : option string;
}.

Definition apiKeyEnvVar := "DD_API_KEY".
Definition apiKeyKMSEnvVar := "DD_KMS_API_KEY".
Definition siteURLEnvVar := "DD_SITE".
Definition logLevelEnvVar := "DD_LOG_LEVEL".
Definition logForwardingEnvVar := "DD_FLUSH_TO_LOG".

Definition defaultConfiguration : Configuration :=
  {| addLayers := true; apiKey := None; apiKMSKey := None; site := "datadoghq.com";
     logLevel := "info"; flushMetricsToLogs := false; nodeModuleType := None |}.

(** [if (environment[k] === undefined) { environment[k] = v; }] *)
Definition setIfUndefined (k : string) (v : JSValue) (environment : gmap string JSValue)
    : gmap string JSValue :=
  match environment !! k with
  | None => <[k := v]> environment
  | Some _ => environment
  end.

Definition setEnvConfiguration (config : Configuration) (service : Service) : Service :=
  let prov := provider service in
  let environment := match environment prov with None => ∅ | Some e => e end in
  let environment :=
    match apiKey config with
    | Some k => setIfUndefined apiKeyEnvVar (JSString k) environment
    | None => environment
    end in
  let environment :=
    match apiKMSKey config with
    | Some k => setIfUndefined apiKeyKMSEnvVar (JSString k) environment
    | None => environment
    end in
  let environment := setIfUndefined siteURLEnvVar (JSString (site config)) environment in
  let environment := setIfUndefined logLevelEnvVar (JSString (logLevel config)) environment in
  let environment :=
    setIfUndefined logForwardingEnvVar (JSBool (flushMetricsToLogs config)) environment in
  {| provider := {| region := region prov; environment := Some environment |};
     functions := functions service; plugins := plugins service |}.

(* ------------------------------------------------------------------ *)
(** ** src/env.ts: getConfig *)

(** [Partial<Configuration>]: each key may be absent. *)
Record PartialConfiguration := mkPartialConfiguration {
  p_addLayers : option bool;
  p_apiKey : option string;
  p_apiKMSKey : option string;
  p_site : option string;
  p_logLevel : option string;
  p_flushMetricsToLogs : option bool;
  p_nodeModuleType : option string;
}.

Definition emptyPartial : PartialConfiguration :=
  {| p_addLayers := None; p_apiKey := None; p_apiKMSKey := None; p_site := None;
     p_logLevel := None; p_flushMetricsToLogs := None; p_nodeModuleType := None |}.

(** [service.custom], of which the plugin reads the [datadog] key. *)
Record Custom := mkCustom { datadog : option PartialConfiguration }.

Definition spread {A} (over : option A) (base : A) : A :=
  match over with Some x => x | None => base end.

(** [getConfig(service)], given [service.custom]; [{...defaultConfiguration,
    ...datadog}] takes each key of [datadog] that is present. *)
Definition getConfig (custom : option Custom) : Configuration :=
  let custom := match custom with None => {| datadog := None |} | Some c => c end in
  let dd := match datadog custom with None => emptyPartial | Some d => d end in
  {| addLayers := spread (p_addLayers dd) (addLayers defaultConfiguration);
     apiKey := match p_apiKey dd with Some k => Some k | None => apiKey defaultConfiguration end;
     apiKMSKey := match p_apiKMSKey dd with
                  | Some k => Some k | None => apiKMSKey defaultConfiguration end;
     site := spread (p_site dd) (site defaultConfiguration);
     logLevel := spread (p_logLevel dd) (logLevel defaultConfiguration);
     flushMetricsToLogs := spread (p_flushMetricsToLogs dd) (flushMetricsToLogs defaultConfiguration);
     nodeModuleType := match p_nodeModuleType dd with
                       | Some k => Some k | None => nodeModuleType defaultConfiguration end |}.

(** The value [setEnvConfiguration] writes for key [k] when it is undefined
    ([None]: nothing is written). *)
Definition envDefault (config : Configuration) (k : string) : option JSValue :=
  if String.eqb k apiKeyEnvVar then JSString <$> apiKey config
  else if String.eqb k apiKeyKMSEnvVar then JSString <$> apiKMSKey config
  else if String.eqb k siteURLEnvVar then Some (JSString (site config))
  else if String.eqb k logLevelEnvVar then Some (JSString (logLevel config))
  else if String.eqb k logForwardingEnvVar then Some (JSBool (flushMetricsToLogs config))
  else None.

(* ------------------------------------------------------------------ *)
(** ** src/util.ts: removeDirectory *)

(** The directory tree below a path as [fs.lstat] sees it: a directory with
    its entries in [fs.readdir] order, or anything else (file, symbolic
    link), which [removeDirectory] unlinks.  A top-level path that is a
    symbolic link to a directory is not covered by this model. *)
Local Set Warnings "-register-all".
Inductive Node := FileNode | DirNode (entries : list (string * Node)).

(** The file-system calls [removeDirectory] makes, in order. *)
Inductive FsOp := Unlink (p : string) | Rmdir (p : string).

(** The recursive part: [readdir(path)], then for each entry [curPath =
    path + "/" + file]: recurse into a directory, [unlink] anything else;
    finally [rmdir(path)].  [None] is a rejected promise ([readdir] of a
    non-directory fails with ENOTDIR). *)
Fixpoint removeTree (path : string) (n : Node) : option (list FsOp) :=
  match n with
  | FileNode => None
  | DirNode entries =>
      let fix go (es : list (string * Node)) : option (list FsOp) :=
        match es with
        | [] => Some []
        | (file, child) :: rest =>
            let curPath := path ++ "/" ++ file in
            let here := match child with
                        | DirNode _ => removeTree curPath child
                        | FileNode => Some [Unlink curPath]
                        end in
            match here with
            | None => None
            | Some o1 => match go rest with None => None | Some o2 => Some (o1 ++ o2)%list end
            end
        end in
      match go entries with
      | None => None
      | Some ops => Some (ops ++ [Rmdir path])%list
      end
  end.

(** [removeDirectory(path)]: [exists(path)] first; the tree at [path], [None]
    when nothing exists there. *)
Definition removeDirectory (path : string) (st : option Node) : option (list FsOp) :=
  match st with
  | None => Some []
  | Some n => removeTree path n
  end.

Definition op_path (o : FsOp) : string := match o with Unlink p => p | Rmdir p => p end.

(** The call each node of a tree at [path] is due, listed parent first: an
    [unlink] of a non-directory, an [rmdir] of a directory; an entry [file] of
    a directory at [p] is at [p + "/" + file]. *)
Fixpoint node_calls (path : string) (n : Node) : list FsOp :=
  match n with
  | FileNode => [Unlink path]
  | DirNode entries =>
      Rmdir path ::
      (fix go (es : list (string * Node)) : list FsOp :=
         match es with
         | [] => []
         | (file, child) :: rest => (node_calls (path ++ "/" ++ file) child ++ go rest)%list
         end) entries
  end.

(* ------------------------------------------------------------------ *)
(** ** Predicates used in the statements *)

(** A record is settled in a heap when its loop iteration would find the
    value already in the list. *)
Definition settled (builtinGet : string -> string -> option LayerValue) (rv : RegionValue)
    (heap : gmap string FunctionDefinition) (h : HandlerInfo) : Prop :=
  forall r arn fd, info_type h <> UNSUPPORTED -> info_runtime h = Some r ->
    regionRuntimesGet builtinGet rv r = Some arn -> heap !! info_handler h = Some fd ->
    arn ∈ getLayers fd.


Definition envVars : list string :=
  [apiKeyEnvVar; apiKeyKMSEnvVar; siteURLEnvVar; logLevelEnvVar; logForwardingEnvVar].

(** The provider's environment as a dictionary, [{}] when the field is absent. *)
Definition envOf (service : Service) : gmap string JSValue :=
  match environment (provider service) with None => ∅ | Some e => e end.

(* ------------------------------------------------------------------ *)
(** ** Test fixtures *)

Definition mkFD (h : string) (r : option string) (l : option (list LayerValue))
    : FunctionDefinition :=
  {| handler := h; runtime := r; layers := l |}.

(** A list of layer ARNs. *)
Definition arns (l : list string) : list LayerValue := map LayerARN l.

Definition no_files : string -> bool := fun _ => false.

(** An engine whose built-in values have no properties. *)
Definition no_builtins : string -> string -> option LayerValue := fun _ _ => None.

Definition svc_test : Service :=
  {| provider := {| region := "us-east-1";
                    environment := Some {[ "DD_SITE" := JSString "datadoghq.eu";
                                           "OTHER" := JSString "x" ]} |};
     functions := [("func-a", mkFD "mylambda.handler" (Some "nodejs10.x") None);
                   ("func-b", mkFD "myfile.handler" (Some "go1.10") None);
                   ("func-x", mkFD "index" (Some "nodejs12.x") None);
                   ("func-p", mkFD "index" None None)];
     plugins := Some ["serverless-webpack"] |}.

(** A function whose declared runtime-name is an [Object.prototype] member. *)
Definition svc_ctor : Service :=
  {| provider := {| region := "us-east-1"; environment := None |};
     functions := [("f", mkFD "h.handler" (Some "constructor") None)];
     plugins := None |}.

Definition heap_ctor : gmap string FunctionDefinition :=
  {[ "f" := mkFD "h.handler" (Some "constructor") None ]}.

Definition files_ts_es : string -> bool :=
  fun p => String.eqb p "./mylambda.ts" || String.eqb p "./mylambda.es.js".

Definition layers_test : LayerJSON :=
  {| regions := {[ "us-east-1" := {[ "nodejs10.x" := "node:2" ]} ]} |}.

Definition rec_f (t : TypeValue) (r : option string) : HandlerInfo :=
  {| info_name := "f"; info_type := t; info_handler := "f"; info_runtime := r |}.

Definition heap_f (l : option (list LayerValue)) : gmap string FunctionDefinition :=
  {[ "f" := mkFD "h.h" (Some "nodejs10.x") l ]}.

(* ------------------------------------------------------------------ *)
(** ** Sanity checks on the repository's tests *)

Example getHandlerPath_myfile :
  getHandlerPath (mkFD "mydir/func.handler" None None)
  = Some {| method := "handler"; filename := "mydir/func" |}.
Proof. reflexivity. Qed.

Example getHandlerPath_test_nodot : getHandlerPath (mkFD "handler" None None) = None.
Proof. reflexivity. Qed.

Example findHandlers_test1 :
  map info_type (findHandlers no_files
    {| provider := {| region := "us-east-1"; environment := None |};
       functions := [("func-a", mkFD "myfile.handler" (Some "nodejs8.10") None);
                     ("func-b", mkFD "myfile.handler" (Some "go1.10") None);
                     ("func-d", mkFD "myfile.handler" (Some "python2.7") None)];
       plugins := None |} None None)
  = [RT NODE; RT UNSUPPORTED; RT PYTHON].
Proof. vm_compute. reflexivity. Qed.

Example findHandlers_ts :
  map info_type (findHandlers (fun p => String.eqb p "./mylambda.ts")
    {| provider := {| region := "us-east-1"; environment := None |};
       functions := [("func-a", mkFD "mylambda.handler" (Some "nodejs8.10") None)];
       plugins := None |} None None)
  = [RT NODE_TS].
Proof. vm_compute. reflexivity. Qed.

Example applyLayers_append :
  applyLayers no_builtins "us-east-1"
    [{| info_name := "f"; info_type := NODE; info_handler := "f"; info_runtime := Some "nodejs10.x" |}]
    {| regions := {[ "us-east-1" := {[ "nodejs10.x" := "node:2" ]} ]} |}
    {[ "f" := mkFD "h.h" (Some "nodejs10.x") (Some (arns ["node:1"])) ]}
  !! "f" = Some (mkFD "h.h" (Some "nodejs10.x") (Some (arns ["node:1"; "node:2"]))).
Proof. vm_compute. reflexivity. Qed.

Example findHandlers_toString :
  map info_type (findHandlers no_files
    {| provider := {| region := "us-east-1"; environment := None |};
       functions := [("func-t", mkFD "index" (Some "toString") None)];
       plugins := None |} None None)
  = [TypeBuiltin "Object.prototype.toString"].
Proof. vm_compute. reflexivity. Qed.

(* ------------------------------------------------------------------ *)
(** ** Classifier: auxiliary lemmas *)

Lemma string_app_cons a (s t : string) : (String a s ++ t)%string = String a (s ++ t).
Proof. reflexivity. Qed.

Lemma string_app_nil_r (s : string) : (s ++ "")%string = s.
Proof. induction s; [done|]. rewrite string_app_cons. congruence. Qed.

Lemma string_app_assoc (a b c : string) : (a ++ (b ++ c))%string = ((a ++ b) ++ c)%string.
Proof. induction a; [done|]. rewrite !string_app_cons. congruence. Qed.

Lemma split_dot_aux_nodot (s cur : string) :
  ~ In "."%char (list_ascii_of_string s) -> split_dot_aux s cur = [cur ++ s].
Proof.
  revert cur. induction s as [|c s IH]; intros cur Hnd; simpl in *.
  - by rewrite string_app_nil_r.
  - destruct (Ascii.eqb_spec c "."%char) as [->|Hc]; [tauto|].
    rewrite IH by tauto. by rewrite <- string_app_assoc.
Qed.

Lemma getHandlerPath_nodot (fdef : FunctionDefinition) :
  ~ In "."%char (list_ascii_of_string (handler fdef)) -> getHandlerPath fdef = None.
Proof.
  intros Hnd. unfold getHandlerPath, split_dot.
  by rewrite split_dot_aux_nodot.
Qed.

Lemma runtimeLookupGet_own r t : runtimeLookup !! r = Some t -> runtimeLookupGet r = Some (RT t).
Proof. unfold runtimeLookupGet. by intros ->. Qed.

Lemma runtimeLookupGet_none r :
  runtimeLookupGet r = None <-> runtimeLookup !! r = None /\ objectPrototypeMember r = None.
Proof.
  unfold runtimeLookupGet. destruct (runtimeLookup !! r); [split; [done|]; by intros []|].
  destruct (objectPrototypeMember r); simpl; split; try done; by intros [_ ?].
Qed.

Lemma findHandler_name existsSync service dR dN name fdef h :
  findHandler existsSync service dR dN name fdef = Some h ->
  info_name h = name /\ info_handler h = name.
Proof.
  unfold findHandler.
  destruct (effectiveRuntime fdef dR) as [r|]; [|by intros [= <-]].
  destruct (runtimeLookupGet r) as [ty|]; [|by intros [= <-]].
  case_decide; [|by intros [= <-]].
  destruct (getHandlerPath fdef) as [hp|]; [|done].
  by destruct dN; intros [= <-].
Qed.

Lemma elem_of_findHandlers existsSync service dR dN h :
  h ∈ findHandlers existsSync service dR dN <->
  exists name fdef, (name, fdef) ∈ functions service /\
                    findHandler existsSync service dR dN name fdef = Some h.
Proof.
  unfold findHandlers. rewrite list_elem_of_omap. split.
  - intros [[n f] [Hin Hf]]. eauto.
  - intros (n & f & Hin & Hf). exists (n, f). auto.
Qed.

Lemma NoDup_fst_unique {A B} (l : list (A * B)) (a : A) (b1 b2 : B) :
  NoDup (map fst l) -> (a, b1) ∈ l -> (a, b2) ∈ l -> b1 = b2.
Proof.
  induction l as [|[x y] l IH]; simpl; intros Hnd H1 H2.
  - by apply elem_of_nil in H1.
  - apply NoDup_cons in Hnd as [Hx Hnd].
    apply elem_of_cons in H1, H2.
    assert (Hout : forall b, (a, b) ∈ l -> x <> a).
    { intros b Hb Hxa. subst x. apply Hx, list_elem_of_In, in_map_iff.
      exists (a, b). split; [done|]. by apply list_elem_of_In. }
    destruct H1 as [H1|H1], H2 as [H2|H2].
    + inversion H1; inversion H2; congruence.
    + inversion H1; subst. by destruct (Hout b2 H2).
    + inversion H2; subst. by destruct (Hout b1 H1).
    + eauto.
Qed.

Lemma hasWebpackPlugin_spec service ps :
  plugins service = Some ps -> In "serverless-webpack" ps -> hasWebpackPlugin service = true.
Proof.
  unfold hasWebpackPlugin. intros -> Hin. apply existsb_exists.
  exists "serverless-webpack". split; [done|]. apply String.eqb_refl.
Qed.

Lemma findHandler_unsupported existsSync service dR dN name fdef :
  (effectiveRuntime fdef dR = None \/
   exists r, effectiveRuntime fdef dR = Some r /\ runtimeLookupGet r = None) ->
  findHandler existsSync service dR dN name fdef =
  Some {| info_name := name; info_type := UNSUPPORTED; info_handler := name;
          info_runtime := effectiveRuntime fdef dR |}.
Proof.
  intros Hrt. unfold findHandler.
  destruct Hrt as [->|(r & -> & Hr)]; [done|]. by rewrite Hr.
Qed.

(** The classification of a function whose runtime-name is a key of
    [runtimeLookup] mapped to [NODE] and whose handler reference is
    well formed. *)
Lemma findHandler_node existsSync service dR dN name fdef r hp :
  effectiveRuntime fdef dR = Some r -> runtimeLookup !! r = Some NODE ->
  getHandlerPath fdef = Some hp ->
  findHandler existsSync service dR dN name fdef =
  Some {| info_name := name; info_handler := name; info_runtime := Some r;
          info_type :=
            match dN with
            | Some d => RT d
            | None =>
                if existsSync ("./" ++ filename hp ++ ".ts") then RT NODE_TS
                else if existsSync ("./" ++ filename hp ++ ".es.js")
                        || existsSync ("./" ++ filename hp ++ ".mjs")
                        || hasWebpackPlugin service
                     then RT NODE_ES6 else RT NODE
            end |}.
Proof.
  intros Hrt Hr Hhp. unfold findHandler. rewrite Hrt, (runtimeLookupGet_own _ _ Hr).
  rewrite decide_True by done. rewrite Hhp. by destruct dN.
Qed.

(* ------------------------------------------------------------------ *)
(** ** Classifier theorems *)



(** C6: a function whose base category is [NODE] and whose handler reference
    contains no dot is absent from the output of [findHandlers]: no record
    carries its name (function names are the distinct keys of
    [service.functions]); the result is a plain list, no error is raised. *)
Theorem findHandlers_drops_malformed existsSync service dR dN name fdef r :
  NoDup (map fst (functions service)) ->
  (name, fdef) ∈ functions service ->
  effectiveRuntime fdef dR = Some r -> runtimeLookup !! r = Some NODE ->
  ~ In "."%char (list_ascii_of_string (handler fdef)) ->
  forall h, h ∈ findHandlers existsSync service dR dN -> info_name h <> name.
Proof.
  intros Hnd Hin Hrt Hr Hdot h Hh Hname.
  apply elem_of_findHandlers in Hh as (n & f & Hin' & Hf).
  destruct (findHandler_name _ _ _ _ _ _ _ Hf) as [Hn _].
  rewrite Hname in Hn. subst n.
  rewrite (NoDup_fst_unique _ _ _ _ Hnd Hin' Hin) in Hf.
  unfold findHandler in Hf. rewrite Hrt, (runtimeLookupGet_own _ _ Hr) in Hf.
  rewrite decide_True in Hf by done.
  by rewrite getHandlerPath_nodot in Hf.
Qed.

(** C7: a [NODE] function with no forced dialect whose module path has a
    sibling [.ts] file is classified [NODE_TS], whatever the [.es.js] / [.mjs]
    files and the plugin list are. *)
Theorem findHandlers_typescript_wins existsSync service dR name fdef r hp :
  (name, fdef) ∈ functions service ->
  effectiveRuntime fdef dR = Some r -> runtimeLookup !! r = Some NODE ->
  getHandlerPath fdef = Some hp ->
  existsSync ("./" ++ filename hp ++ ".ts") = true ->
  {| info_name := name; info_type := NODE_TS; info_handler := name;
     info_runtime := Some r |} ∈ findHandlers existsSync service dR None.
Proof.
  intros Hin Hrt Hr Hhp Hts. apply elem_of_findHandlers. exists name, fdef.
  split; [done|]. rewrite (findHandler_node _ _ _ _ _ _ _ _ Hrt Hr Hhp). by rewrite Hts.
Qed.

(** C8: a [NODE] function with no forced dialect, none of the three sibling
    files present and ["serverless-webpack"] in the plugin list is classified
    [NODE_ES6]. *)
Theorem findHandlers_webpack_es6 existsSync service dR name fdef r hp ps :
  (name, fdef) ∈ functions service ->
  effectiveRuntime fdef dR = Some r -> runtimeLookup !! r = Some NODE ->
  getHandlerPath fdef = Some hp ->
  existsSync ("./" ++ filename hp ++ ".es.js") = false ->
  existsSync ("./" ++ filename hp ++ ".mjs") = false ->
  existsSync ("./" ++ filename hp ++ ".ts") = false ->
  plugins service = Some ps -> In "serverless-webpack" ps ->
  {| info_name := name; info_type := NODE_ES6; info_handler := name;
     info_runtime := Some r |} ∈ findHandlers existsSync service dR None.
Proof.
  intros Hin Hrt Hr Hhp Hes Hmjs Hts Hps Hwp. apply elem_of_findHandlers.
  exists name, fdef. split; [done|]. rewrite (findHandler_node _ _ _ _ _ _ _ _ Hrt Hr Hhp).
  by rewrite Hes, Hmjs, Hts, (hasWebpackPlugin_spec _ _ Hps Hwp).
Qed.

(** C10: a function whose effective runtime-name is undefined, unknown, or
    maps to [PYTHON] is kept in the output whatever its handler reference. *)
Theorem findHandlers_retains_non_node existsSync service dR dN name fdef :
  (name, fdef) ∈ functions service ->
  (effectiveRuntime fdef dR = None \/
   exists r, effectiveRuntime fdef dR = Some r /\
             (runtimeLookup !! r = None \/ runtimeLookup !! r = Some PYTHON)) ->
  exists h, h ∈ findHandlers existsSync service dR dN /\
            info_name h = name /\ info_handler h = name /\
            info_runtime h = effectiveRuntime fdef dR.
Proof.
  intros Hin Hrt.
  assert (Hty : effectiveRuntime fdef dR = None \/
                exists r ty, effectiveRuntime fdef dR = Some r /\ runtimeLookupGet r = ty /\
                             ty <> Some (RT NODE)).
  { destruct Hrt as [Hrt|(r & Hrt & Hr)]; [by left|]. right. exists r, (runtimeLookupGet r).
    split; [done|]. split; [done|]. unfold runtimeLookupGet.
    destruct Hr as [->| ->]; [|done].
    by destruct (objectPrototypeMember r). }
  destruct Hty as [Hrt'|(r & ty & Hrt' & Hty & Hne)].
  - exists {| info_name := name; info_type := UNSUPPORTED; info_handler := name;
              info_runtime := effectiveRuntime fdef dR |}.
    split; [|done]. apply elem_of_findHandlers; exists name, fdef.
    split; [done|]. apply findHandler_unsupported; eauto.
  - destruct ty as [t|].
    + exists {| info_name := name; info_type := t; info_handler := name;
                info_runtime := effectiveRuntime fdef dR |}.
      split; [|done]. apply elem_of_findHandlers. exists name, fdef. split; [done|].
      unfold findHandler. rewrite Hrt', Hty, decide_False by congruence. reflexivity.
    + exists {| info_name := name; info_type := UNSUPPORTED; info_handler := name;
                info_runtime := effectiveRuntime fdef dR |}.
      split; [|done]. apply elem_of_findHandlers; exists name, fdef.
      split; [done|]. apply findHandler_unsupported; eauto.
Qed.

(* ------------------------------------------------------------------ *)
(** ** Layer merger: auxiliary lemmas *)

Lemma set_has_spec (l : list LayerValue) (x : LayerValue) : set_has l x = true <-> x ∈ l.
Proof.
  unfold set_has. rewrite existsb_exists, list_elem_of_In. split.
  - intros (y & Hy & Heq). apply bool_decide_eq_true in Heq. by subst.
  - intros Hx. exists x. split; [done|]. by apply bool_decide_eq_true.
Qed.

Lemma regionsGet_own lj region rr :
  regions lj !! region = Some rr -> regionsGet lj region = Some (RegionTable rr).
Proof. unfold regionsGet. by intros ->. Qed.

Lemma applyLayer_lookup_ne bg rv heap h k :
  info_handler h <> k -> applyLayer bg rv heap h !! k = heap !! k.
Proof.
  intros Hne. unfold applyLayer.
  case_decide; [done|].
  destruct (match info_runtime h with Some r => regionRuntimesGet bg rv r | None => None end);
    [|done].
  destruct (heap !! info_handler h); [|done].
  by rewrite lookup_insert_ne.
Qed.

Lemma fold_applyLayer_lookup_ne bg rv hs heap k :
  (forall h, h ∈ hs -> info_handler h <> k) ->
  fold_left (applyLayer bg rv) hs heap !! k = heap !! k.
Proof.
  revert heap. induction hs as [|h hs IH]; intros heap Hne; [done|]. simpl.
  rewrite IH by (intros h' Hh'; apply Hne; by right).
  apply applyLayer_lookup_ne, Hne. by left.
Qed.

(** The loop body at the descriptor it edits. *)
Lemma applyLayer_lookup_eq bg rv heap h r arn fd0 :
  info_type h <> UNSUPPORTED -> info_runtime h = Some r ->
  regionRuntimesGet bg rv r = Some arn ->
  heap !! info_handler h = Some fd0 ->
  applyLayer bg rv heap h !! info_handler h =
  Some (setLayers fd0 (if bool_decide (arn ∈ getLayers fd0) then getLayers fd0
                       else (getLayers fd0 ++ [arn])%list)).
Proof.
  intros Hty Hr Harn Hfd. unfold applyLayer.
  rewrite decide_False by done. rewrite Hr, Harn, Hfd, lookup_insert_eq.
  destruct (set_has (getLayers fd0) arn) eqn:Hs.
  - apply set_has_spec in Hs. by rewrite bool_decide_true.
  - rewrite bool_decide_false; [done|]. intros Hin. apply set_has_spec in Hin. congruence.
Qed.

(** At one record of a list with one record per descriptor, the whole loop
    does what that record's iteration does. *)
Lemma fold_applyLayer_at bg rv hs heap h r arn fd0 :
  NoDup (map info_handler hs) -> h ∈ hs ->
  info_type h <> UNSUPPORTED -> info_runtime h = Some r ->
  regionRuntimesGet bg rv r = Some arn ->
  heap !! info_handler h = Some fd0 ->
  fold_left (applyLayer bg rv) hs heap !! info_handler h =
  Some (setLayers fd0 (if bool_decide (arn ∈ getLayers fd0) then getLayers fd0
                       else (getLayers fd0 ++ [arn])%list)).
Proof.
  intros Hnd Hh Hty Hr Harn Hfd.
  apply list_elem_of_split in Hh as (hs1 & hs2 & ->).
  rewrite map_app in Hnd. simpl in Hnd.
  apply NoDup_app in Hnd as (_ & Hdisj & Hnd2).
  apply NoDup_cons in Hnd2 as [Hnot2 _].
  rewrite fold_left_app. simpl.
  rewrite fold_applyLayer_lookup_ne.
  2: { intros h' Hh' Heq. apply Hnot2. rewrite <- Heq.
       apply list_elem_of_In, in_map, list_elem_of_In, Hh'. }
  apply (applyLayer_lookup_eq _ _ _ _ r); [done..|].
  rewrite fold_applyLayer_lookup_ne; [done|].
  intros h' Hh' Heq. apply (Hdisj (info_handler h)).
  - rewrite <- Heq. apply list_elem_of_In, in_map, list_elem_of_In, Hh'.
  - by left.
Qed.

(** Lists only grow: every value of a descriptor's list is still in it after
    one loop iteration. *)
Lemma applyLayer_grows bg rv heap h k fd x :
  heap !! k = Some fd -> x ∈ getLayers fd ->
  exists fd', applyLayer bg rv heap h !! k = Some fd' /\ x ∈ getLayers fd'.
Proof.
  intros Hk Hx. destruct (decide (info_handler h = k)) as [<-|Hne].
  - unfold applyLayer. case_decide; [eauto|].
    destruct (match info_runtime h with Some r => regionRuntimesGet bg rv r | None => None end)
      as [arn|]; [|eauto].
    rewrite Hk, lookup_insert_eq. eexists. split; [done|]. unfold getLayers at 1; simpl.
    destruct (set_has (getLayers fd) arn); [done|]. apply elem_of_app. by left.
  - rewrite applyLayer_lookup_ne by done. eauto.
Qed.

Lemma setLayers_getLayers fd x : x ∈ getLayers fd -> setLayers fd (getLayers fd) = fd.
Proof.
  destruct fd as [hd rt [l|]]; unfold getLayers; simpl; [done|].
  by intros ?%elem_of_nil.
Qed.

Lemma applyLayer_settled_noop bg rv heap h :
  settled bg rv heap h -> applyLayer bg rv heap h = heap.
Proof.
  intros Hs. unfold applyLayer. case_decide as Hty; [done|].
  destruct (info_runtime h) as [r|] eqn:Hr; [|done].
  destruct (regionRuntimesGet bg rv r) as [arn|] eqn:Harn; [|done].
  destruct (heap !! info_handler h) as [fd|] eqn:Hfd; [|done].
  pose proof (Hs r arn fd Hty Hr Harn Hfd) as Hin.
  apply set_has_spec in Hin as Hb. rewrite Hb.
  rewrite (setLayers_getLayers fd arn) by (by apply set_has_spec).
  by apply insert_id.
Qed.

Lemma applyLayer_settles bg rv heap h : settled bg rv (applyLayer bg rv heap h) h.
Proof.
  intros r arn fd Hty Hr Harn Hfd.
  unfold applyLayer in Hfd. rewrite decide_False in Hfd by done.
  rewrite Hr, Harn in Hfd.
  destruct (heap !! info_handler h) as [fd0|] eqn:Hfd0; [|congruence].
  rewrite lookup_insert_eq in Hfd. injection Hfd as <-.
  unfold getLayers at 1; simpl.
  destruct (set_has (getLayers fd0) arn) eqn:Hb.
  - by apply set_has_spec.
  - apply elem_of_app. right. by left.
Qed.

Lemma applyLayer_keeps_settled bg rv heap h h' :
  settled bg rv heap h' -> settled bg rv (applyLayer bg rv heap h) h'.
Proof.
  intros Hs r arn fd Hty Hr Harn Hfd.
  destruct (heap !! info_handler h') as [fd0|] eqn:Hfd0.
  - destruct (applyLayer_grows bg rv heap h _ _ arn Hfd0 (Hs r arn fd0 Hty Hr Harn Hfd0))
      as (fd' & Hfd' & Hin).
    rewrite Hfd in Hfd'. by injection Hfd' as ->.
  - exfalso. unfold applyLayer in Hfd.
    case_decide; [congruence|].
    destruct (match info_runtime h with Some r => regionRuntimesGet bg rv r | None => None end);
      [|congruence].
    destruct (heap !! info_handler h) eqn:Hh; [|congruence].
    destruct (decide (info_handler h = info_handler h')) as [Heq|Hne].
    + rewrite Heq in Hh. congruence.
    + rewrite lookup_insert_ne in Hfd by done. congruence.
Qed.

Lemma fold_keeps_settled bg rv hs heap h' :
  settled bg rv heap h' -> settled bg rv (fold_left (applyLayer bg rv) hs heap) h'.
Proof.
  revert heap. induction hs as [|h hs IH]; intros heap Hs; [done|]. simpl.
  apply IH, applyLayer_keeps_settled, Hs.
Qed.

Lemma fold_settles bg rv hs heap :
  forall h, h ∈ hs -> settled bg rv (fold_left (applyLayer bg rv) hs heap) h.
Proof.
  revert heap. induction hs as [|h0 hs IH]; intros heap h Hh; simpl.
  - by apply elem_of_nil in Hh.
  - apply elem_of_cons in Hh as [->|Hh].
    + apply fold_keeps_settled, applyLayer_settles.
    + by apply IH.
Qed.

Lemma fold_settled_noop bg rv hs heap :
  (forall h, h ∈ hs -> settled bg rv heap h) -> fold_left (applyLayer bg rv) hs heap = heap.
Proof.
  induction hs as [|h hs IH]; intros Hs; [done|]. simpl.
  rewrite applyLayer_settled_noop by (apply Hs; by left).
  apply IH. intros h' Hh'. apply Hs. by right.
Qed.

Lemma applyLayer_nodup bg rv heap h :
  (forall k fd, heap !! k = Some fd -> NoDup (getLayers fd)) ->
  forall k fd, applyLayer bg rv heap h !! k = Some fd -> NoDup (getLayers fd).
Proof.
  intros Hnd k fd Hk. destruct (decide (info_handler h = k)) as [<-|Hne].
  - unfold applyLayer in Hk. case_decide; [eauto|].
    destruct (match info_runtime h with Some r => regionRuntimesGet bg rv r | None => None end)
      as [arn|]; [|eauto].
    destruct (heap !! info_handler h) as [fd0|] eqn:Hfd0; [|eauto].
    rewrite lookup_insert_eq in Hk. injection Hk as <-.
    unfold getLayers at 1; simpl. specialize (Hnd _ _ Hfd0).
    destruct (set_has (getLayers fd0) arn) eqn:Hb; [done|].
    apply NoDup_app. split; [done|]. split; [|apply NoDup_singleton].
    intros x Hx ->%list_elem_of_singleton. apply set_has_spec in Hx. congruence.
  - rewrite applyLayer_lookup_ne in Hk by done. eauto.
Qed.


(* ------------------------------------------------------------------ *)
(** ** Layer merger theorems *)

(** C2: for a supported record with a runtime-name that has a layer [arn] in
    the region's table, [applyLayers] leaves the function's descriptor with
    the list it had ([[]] when the field was absent) extended by [arn] when
    [arn] is not a member, and the same list otherwise (one record per
    function, as [findHandlers] produces), whatever the engine's built-in
    values are. *)
Theorem applyLayers_append_if_absent bg region hs lj heap h rr r arn fd0 :
  NoDup (map info_handler hs) -> h ∈ hs ->
  regions lj !! region = Some rr ->
  info_type h <> UNSUPPORTED -> info_runtime h = Some r -> rr !! r = Some arn ->
  heap !! info_handler h = Some fd0 ->
  applyLayers bg region hs lj heap !! info_handler h =
  Some (setLayers fd0 (if bool_decide (LayerARN arn ∈ getLayers fd0) then getLayers fd0
                       else (getLayers fd0 ++ [LayerARN arn])%list)).
Proof.
  intros Hnd Hh Hrr Hty Hr Harn Hfd. unfold applyLayers. rewrite (regionsGet_own _ _ _ Hrr).
  apply (fold_applyLayer_at _ _ _ _ _ r); [done..| |done].
  simpl. by rewrite Harn.
Qed.

(** C3 (as stated): after a merge pass no layer list has a duplicate.
    Refuted: a list that already had a duplicate keeps it, the pass only
    checks the identifier it merges. *)
Lemma applyLayers_nodup_counterexample :
  exists fd,
    applyLayers no_builtins "us-east-1"
      [{| info_name := "f"; info_type := NODE; info_handler := "f";
          info_runtime := Some "nodejs10.x" |}]
      {| regions := {[ "us-east-1" := {[ "nodejs10.x" := "node:2" ]} ]} |}
      {[ "f" := mkFD "h.h" (Some "nodejs10.x") (Some (arns ["node:1"; "node:1"])) ]}
    !! "f" = Some fd /\ ~ NoDup (getLayers fd).
Proof.
  eexists. split; [vm_compute; reflexivity|]. vm_compute.
  intros Hn. apply NoDup_cons in Hn as [Hn _]. apply Hn. by left.
Qed.

(** C3 (amended): if no layer list has a duplicate before a merge pass, none
    has one after it. *)
Theorem applyLayers_preserves_nodup bg region hs lj heap :
  (forall k fd, heap !! k = Some fd -> NoDup (getLayers fd)) ->
  forall k fd, applyLayers bg region hs lj heap !! k = Some fd -> NoDup (getLayers fd).
Proof.
  unfold applyLayers. destruct (regionsGet lj region) as [rv|]; [|done].
  revert heap. induction hs as [|h hs IH]; intros heap Hnd; [done|]. simpl.
  apply IH. by apply applyLayer_nodup.
Qed.

(** C4: [applyLayers] is idempotent: a second run with the same region and
    table leaves every descriptor as the first run left it. *)
Theorem applyLayers_idempotent bg region hs lj heap :
  applyLayers bg region hs lj (applyLayers bg region hs lj heap)
  = applyLayers bg region hs lj heap.
Proof.
  unfold applyLayers. destruct (regionsGet lj region) as [rv|]; [|done].
  apply fold_settled_noop, fold_settles.
Qed.


(* ------------------------------------------------------------------ *)
(** ** Environment defaults *)

Lemma setIfUndefined_keep k' v e k x :
  e !! k = Some x -> setIfUndefined k' v e !! k = Some x.
Proof.
  unfold setIfUndefined. intros Hk. destruct (e !! k') eqn:Hk'; [done|].
  destruct (decide (k' = k)) as [->|Hne]; [congruence|]. by rewrite lookup_insert_ne.
Qed.

Lemma setIfUndefined_ne k' v e k :
  k' <> k -> setIfUndefined k' v e !! k = e !! k.
Proof.
  unfold setIfUndefined. intros Hne. destruct (e !! k'); [done|].
  by rewrite lookup_insert_ne.
Qed.

(** C9: [setEnvConfiguration] keeps the value of each of the five telemetry
    variables that is already defined, and leaves every other key of the
    provider's environment as it was (not added, changed or removed). *)
Theorem setEnvConfiguration_fills_only_absent config service :
  forall k,
    (In k envVars -> forall v, envOf service !! k = Some v ->
                     envOf (setEnvConfiguration config service) !! k = Some v) /\
    (~ In k envVars ->
     envOf (setEnvConfiguration config service) !! k = envOf service !! k).
Proof.
  intros k. unfold envOf, setEnvConfiguration; simpl. split.
  - intros _ v Hv.
    repeat apply setIfUndefined_keep.
    destruct (apiKMSKey config); [apply setIfUndefined_keep|];
      (destruct (apiKey config); [apply setIfUndefined_keep|]); done.
  - intros Hn. unfold envVars in Hn. simpl in Hn.
    rewrite !setIfUndefined_ne by tauto.
    destruct (apiKMSKey config); [rewrite setIfUndefined_ne by tauto|];
      (destruct (apiKey config); [rewrite setIfUndefined_ne by tauto|]); done.
Qed.


(* ------------------------------------------------------------------ *)
(** ** Witnesses: the theorems at concrete inputs *)


Lemma findHandlers_drops_malformed_witness :
  Forall (fun h => info_name h <> "func-x") (findHandlers no_files svc_test None None).
Proof.
  apply Forall_forall. intros h Hh.
  apply (findHandlers_drops_malformed no_files svc_test None None "func-x"
           (mkFD "index" (Some "nodejs12.x") None) "nodejs12.x"); [| | reflexivity
           | vm_compute; reflexivity
           | simpl; intuition congruence | exact Hh].
  - apply (bool_decide_unpack _). vm_compute. reflexivity.
  - apply list_elem_of_In. simpl. tauto.
Defined.

Lemma findHandlers_typescript_wins_witness :
  {| info_name := "func-a"; info_type := NODE_TS; info_handler := "func-a";
     info_runtime := Some "nodejs10.x" |} ∈ findHandlers files_ts_es svc_test None None.
Proof.
  apply (findHandlers_typescript_wins files_ts_es svc_test None "func-a"
           (mkFD "mylambda.handler" (Some "nodejs10.x") None) "nodejs10.x"
           {| method := "handler"; filename := "mylambda" |}).
  - apply list_elem_of_In. simpl. tauto.
  - reflexivity.
  - vm_compute. reflexivity.
  - vm_compute. reflexivity.
  - vm_compute. reflexivity.
Defined.

Lemma findHandlers_webpack_es6_witness :
  {| info_name := "func-a"; info_type := NODE_ES6; info_handler := "func-a";
     info_runtime := Some "nodejs10.x" |} ∈ findHandlers no_files svc_test None None.
Proof.
  apply (findHandlers_webpack_es6 no_files svc_test None "func-a"
           (mkFD "mylambda.handler" (Some "nodejs10.x") None) "nodejs10.x"
           {| method := "handler"; filename := "mylambda" |} ["serverless-webpack"]).
  - apply list_elem_of_In. simpl. tauto.
  - reflexivity.
  - vm_compute. reflexivity.
  - vm_compute. reflexivity.
  - reflexivity.
  - reflexivity.
  - reflexivity.
  - reflexivity.
  - simpl. tauto.
Defined.

Lemma findHandlers_retains_non_node_witness :
  exists h, h ∈ findHandlers no_files svc_test None None /\
            info_name h = "func-p" /\ info_handler h = "func-p" /\ info_runtime h = None.
Proof.
  apply (findHandlers_retains_non_node no_files svc_test None None "func-p"
           (mkFD "index" None None)).
  - apply list_elem_of_In. simpl. tauto.
  - left. reflexivity.
Defined.

Lemma applyLayers_append_if_absent_witness :
  applyLayers no_builtins "us-east-1" [rec_f NODE (Some "nodejs10.x")] layers_test
    (heap_f (Some (arns ["node:1"]))) !! "f"
  = Some (setLayers (mkFD "h.h" (Some "nodejs10.x") (Some (arns ["node:1"])))
            (if bool_decide (LayerARN "node:2" ∈ arns ["node:1"]) then arns ["node:1"]
             else (arns ["node:1"] ++ [LayerARN "node:2"])%list)).
Proof.
  apply (applyLayers_append_if_absent no_builtins "us-east-1" [rec_f NODE (Some "nodejs10.x")]
           layers_test (heap_f (Some (arns ["node:1"]))) (rec_f NODE (Some "nodejs10.x"))
           {[ "nodejs10.x" := "node:2" ]} "nodejs10.x" "node:2").
  - simpl. repeat constructor. apply not_elem_of_nil.
  - simpl. left.
  - vm_compute. reflexivity.
  - simpl. discriminate.
  - reflexivity.
  - vm_compute. reflexivity.
  - vm_compute. reflexivity.
Defined.

Lemma applyLayers_preserves_nodup_witness :
  NoDup (getLayers (mkFD "h.h" (Some "nodejs10.x") (Some (arns ["node:1"; "node:2"])))).
Proof.
  apply (applyLayers_preserves_nodup no_builtins "us-east-1" [rec_f NODE (Some "nodejs10.x")]
           layers_test (heap_f (Some (arns ["node:1"]))) ) with (k := "f").
  - intros k fd Hk. unfold heap_f in Hk. apply lookup_singleton_Some in Hk as [_ <-].
    simpl. repeat constructor. apply not_elem_of_nil.
  - vm_compute. reflexivity.
Defined.


Lemma setEnvConfiguration_fills_only_absent_witness :
  envOf (setEnvConfiguration defaultConfiguration svc_test) !! "DD_SITE"
    = Some (JSString "datadoghq.eu") /\
  envOf (setEnvConfiguration defaultConfiguration svc_test) !! "OTHER"
    = envOf svc_test !! "OTHER".
Proof.
  split.
  - apply (proj1 (setEnvConfiguration_fills_only_absent defaultConfiguration svc_test
                    "DD_SITE")).
    + simpl. tauto.
    + vm_compute. reflexivity.
  - apply (proj2 (setEnvConfiguration_fills_only_absent defaultConfiguration svc_test
                    "OTHER")).
    cbv. intuition discriminate.
Defined.

(* ------------------------------------------------------------------ *)
(** ** getHandlerPath: further properties *)

Lemma list_ascii_of_string_app (a b : string) :
  list_ascii_of_string (a ++ b) = (list_ascii_of_string a ++ list_ascii_of_string b)%list.
Proof. induction a as [|c a IH]; [done|]. rewrite string_app_cons. simpl. by rewrite IH. Qed.

Lemma split_dot_aux_cons s cur : exists x l, split_dot_aux s cur = x :: l.
Proof.
  revert cur. induction s as [|c s IH]; intros cur; simpl; [eauto|].
  destruct (Ascii.eqb c "."); eauto.
Qed.

Lemma join_split_dot_aux s cur : join_dot (split_dot_aux s cur) = (cur ++ s)%string.
Proof.
  revert cur. induction s as [|c s IH]; intros cur; simpl.
  - by rewrite string_app_nil_r.
  - destruct (Ascii.eqb_spec c "."%char) as [->|Hc].
    + destruct (split_dot_aux_cons s "") as (x & l & Heq).
      rewrite Heq.
      change (join_dot (cur :: x :: l)) with (cur ++ "." ++ join_dot (x :: l))%string.
      rewrite <- Heq, IH. reflexivity.
    + rewrite IH, <- string_app_assoc. reflexivity.
Qed.

Lemma join_removelast_last x l :
  l <> [] ->
  (join_dot (removelast (x :: l)) ++ "." ++ List.last (x :: l) "")%string = join_dot (x :: l).
Proof.
  revert x. induction l as [|y r IH]; intros x Hl; [done|].
  destruct r as [|z r].
  - reflexivity.
  - specialize (IH y ltac:(discriminate)).
    change (removelast (x :: y :: z :: r)) with (x :: removelast (y :: z :: r)).
    change (List.last (x :: y :: z :: r) "") with (List.last (y :: z :: r) "").
    change (join_dot (x :: y :: z :: r)) with (x ++ "." ++ join_dot (y :: z :: r))%string.
    rewrite <- IH.
    change (removelast (y :: z :: r)) with (y :: removelast (z :: r)).
    change (join_dot (x :: y :: removelast (z :: r)))
      with (x ++ "." ++ join_dot (y :: removelast (z :: r)))%string.
    rewrite <- !string_app_assoc. reflexivity.
Qed.

Lemma split_dot_aux_segments s cur seg :
  ~ In "."%char (list_ascii_of_string cur) -> In seg (split_dot_aux s cur) ->
  ~ In "."%char (list_ascii_of_string seg).
Proof.
  revert cur. induction s as [|c s IH]; intros cur Hcur Hin; simpl in Hin.
  - destruct Hin as [<-|[]]. done.
  - destruct (Ascii.eqb_spec c "."%char) as [->|Hc].
    + destruct Hin as [<-|Hin]; [done|]. eapply IH; [|exact Hin]. simpl. tauto.
    + eapply IH; [|exact Hin]. rewrite list_ascii_of_string_app. simpl.
      rewrite in_app_iff. simpl. intuition.
Qed.

Lemma last_in_cons {A} (x : A) (l : list A) (d : A) : In (List.last (x :: l) d) (x :: l).
Proof.
  revert x. induction l as [|y l IH]; intros x; [by left|].
  change (List.last (x :: y :: l) d) with (List.last (y :: l) d). right. apply IH.
Qed.

Lemma split_dot_aux_dot s cur :
  In "."%char (list_ascii_of_string s) -> 2 <= length (split_dot_aux s cur).
Proof.
  revert cur. induction s as [|c s IH]; intros cur Hin; simpl in *; [done|].
  destruct (Ascii.eqb_spec c "."%char) as [->|Hc].
  - destruct (split_dot_aux_cons s "") as (x & l & ->). simpl. lia.
  - destruct Hin as [->|Hin]; [done|]. auto.
Qed.

(** X1: [getHandlerPath] splits at the last dot: the module path, a dot and
    the method name give back the handler reference. *)
Theorem getHandlerPath_roundtrip fdef hp :
  getHandlerPath fdef = Some hp -> (filename hp ++ "." ++ method hp)%string = handler fdef.
Proof.
  unfold getHandlerPath, split_dot.
  destruct (split_dot_aux_cons (handler fdef) "") as (x & l & Heq).
  rewrite Heq. remember (x :: l) as parts eqn:Hparts.
  destruct (Nat.ltb_spec (length parts) 2) as [Hlt|Hge]; [done|].
  intros Hs. injection Hs as <-. cbn [filename method].
  rewrite Hparts, join_removelast_last by (destruct l; subst; simpl in Hge; [lia|done]).
  rewrite <- Hparts, <- Heq, join_split_dot_aux. reflexivity.
Qed.

(** X2: the method name [getHandlerPath] returns contains no dot. *)
Theorem getHandlerPath_method_nodot fdef hp :
  getHandlerPath fdef = Some hp -> ~ In "."%char (list_ascii_of_string (method hp)).
Proof.
  unfold getHandlerPath, split_dot.
  destruct (split_dot_aux_cons (handler fdef) "") as (x & l & Heq).
  rewrite Heq. remember (x :: l) as parts eqn:Hparts.
  destruct (Nat.ltb (length parts) 2); [done|].
  intros Hs. injection Hs as <-. cbn [method].
  apply (split_dot_aux_segments (handler fdef) ""); [simpl; tauto|].
  rewrite Heq, Hparts. apply last_in_cons.
Qed.

(** X3: [getHandlerPath] fails exactly when the handler reference has no dot. *)
Theorem getHandlerPath_none_iff fdef :
  getHandlerPath fdef = None <-> ~ In "."%char (list_ascii_of_string (handler fdef)).
Proof.
  split; [|apply getHandlerPath_nodot].
  intros Hn Hdot. unfold getHandlerPath, split_dot in Hn.
  pose proof (split_dot_aux_dot (handler fdef) "" Hdot) as Hl.
  destruct (Nat.ltb_spec (length (split_dot_aux (handler fdef) "")) 2); [lia|done].
Qed.

(* ------------------------------------------------------------------ *)
(** ** findHandlers: further properties *)

Lemma runtimeLookup_values r ty : runtimeLookup !! r = Some ty -> ty = NODE \/ ty = PYTHON.
Proof.
  unfold runtimeLookup. intros H. apply elem_of_list_to_map_2 in H.
  repeat (apply elem_of_cons in H as [H|H]; [injection H as _ <-; tauto|]).
  by apply elem_of_nil in H.
Qed.

Lemma runtimeLookupGet_not_unsupported r ty :
  runtimeLookupGet r = Some ty -> ty <> RT UNSUPPORTED.
Proof.
  unfold runtimeLookupGet. destruct (runtimeLookup !! r) as [t|] eqn:Hr.
  - intros [= <-] [= ->]. destruct (runtimeLookup_values _ _ Hr); discriminate.
  - destruct (objectPrototypeMember r); simpl; [intros [= <-]|]; discriminate.
Qed.

Lemma omap_sublist_fst (f : string * FunctionDefinition -> option HandlerInfo) l :
  (forall p h, f p = Some h -> info_name h = fst p) ->
  sublist (info_name <$> omap f l) (fst <$> l).
Proof.
  intros Hf. induction l as [|p l IH]; simpl; [done|].
  destruct (f p) as [h|] eqn:Hp; simpl.
  - rewrite (Hf _ _ Hp). by apply sublist_skip.
  - by apply sublist_cons.
Qed.

(** X4: [findHandlers] keeps the order of [service.functions] and invents or
    repeats no function: the names of its records are a sub-list of the
    function names. *)
Theorem findHandlers_names_sublist existsSync service dR dN :
  sublist (info_name <$> findHandlers existsSync service dR dN) (fst <$> functions service).
Proof.
  apply omap_sublist_fst. intros [n f] h Hf. exact (proj1 (findHandler_name _ _ _ _ _ _ _ Hf)).
Qed.

(** X5: every record [findHandlers] returns comes from one function of the
    service: it names that function, refers to its descriptor, and carries
    its effective runtime-name. *)
Theorem findHandlers_record_origin existsSync service dR dN h :
  h ∈ findHandlers existsSync service dR dN ->
  exists fdef, (info_name h, fdef) ∈ functions service /\
               info_handler h = info_name h /\ info_runtime h = effectiveRuntime fdef dR.
Proof.
  intros (n & f & Hin & Hf)%elem_of_findHandlers.
  destruct (findHandler_name _ _ _ _ _ _ _ Hf) as [Hn Hh].
  exists f. rewrite Hn, Hh. split; [done|]. split; [done|].
  unfold findHandler in Hf.
  destruct (effectiveRuntime f dR) as [r|]; [|by injection Hf as <-].
  destruct (runtimeLookupGet r) as [ty|]; [|by injection Hf as <-].
  case_decide; [|by injection Hf as <-].
  destruct (getHandlerPath f); [|done].
  by destruct dN; injection Hf as <-.
Qed.

(** X6: with a forced dialect that the option's type allows (not
    [UNSUPPORTED]), a record is [UNSUPPORTED] exactly when its runtime-name
    is undefined, or is neither a key of [runtimeLookup] nor a member
    inherited from [Object.prototype] ([runtime in runtimeLookup] is false). *)
Theorem findHandlers_unsupported_iff existsSync service dR dN h :
  dN <> Some UNSUPPORTED ->
  h ∈ findHandlers existsSync service dR dN ->
  (info_type h = UNSUPPORTED <->
   info_runtime h = None \/
   exists r, info_runtime h = Some r /\
             runtimeLookup !! r = None /\ objectPrototypeMember r = None).
Proof.
  intros HdN (n & f & Hin & Hf)%elem_of_findHandlers.
  unfold findHandler in Hf.
  destruct (effectiveRuntime f dR) as [r|]; [|injection Hf as <-; simpl; tauto].
  destruct (runtimeLookupGet r) as [ty|] eqn:Hr.
  2: { injection Hf as <-. simpl. split; [|done]. intros _. right. exists r.
       split; [done|]. by apply runtimeLookupGet_none. }
  pose proof (runtimeLookupGet_not_unsupported _ _ Hr) as Hty.
  assert (Hright : ~ (Some r = None \/ exists r', Some r = Some r' /\
                      runtimeLookup !! r' = None /\ objectPrototypeMember r' = None)).
  { intros [?|(r' & [= <-] & Hn)]; [congruence|].
    apply runtimeLookupGet_none in Hn. congruence. }
  case_decide.
  - destruct (getHandlerPath f); [|done]. destruct dN as [d|].
    + injection Hf as <-. simpl. split; [intros [= ->]; congruence|tauto].
    + injection Hf as <-. simpl. split; [|tauto].
      intros Hu; exfalso; repeat case_match; congruence.
  - injection Hf as <-. simpl. split; [done|tauto].
Qed.

Lemma omap_ext_in {A B} (f g : A -> option B) (l : list A) :
  (forall x, x ∈ l -> f x = g x) -> omap f l = omap g l.
Proof.
  induction l as [|x l IH]; intros Hfg; [done|]. simpl.
  assert (E : omap f l = omap g l) by (apply IH; intros y Hy; apply Hfg; by right).
  rewrite (Hfg x ltac:(by left)). destruct (g x); [f_equal|]; exact E.
Qed.

(** X7: with a forced dialect the file system is not consulted: the result
    is the same whatever files exist. *)
Theorem findHandlers_forced_no_probe existsSync1 existsSync2 service dR d :
  findHandlers existsSync1 service dR (Some d) = findHandlers existsSync2 service dR (Some d).
Proof.
  unfold findHandlers. apply omap_ext_in. intros [n f] _. unfold findHandler.
  destruct (effectiveRuntime f dR); [|done].
  destruct (runtimeLookupGet _); [|done].
  case_decide; [|done]. by destruct (getHandlerPath f).
Qed.

(** X8: with a forced dialect, a [NODE] function with a well-formed handler
    reference is classified as that dialect. *)
Theorem findHandlers_forced_dialect existsSync service dR (d : RuntimeType) name fdef r :
  (name, fdef) ∈ functions service ->
  effectiveRuntime fdef dR = Some r -> runtimeLookup !! r = Some NODE ->
  In "."%char (list_ascii_of_string (handler fdef)) ->
  {| info_name := name; info_type := d; info_handler := name; info_runtime := Some r |}
    ∈ findHandlers existsSync service dR (Some d).
Proof.
  intros Hin Hrt Hr Hdot. apply elem_of_findHandlers. exists name, fdef. split; [done|].
  destruct (getHandlerPath fdef) as [hp|] eqn:Hhp.
  - by rewrite (findHandler_node _ _ _ _ _ _ _ _ Hrt Hr Hhp).
  - by apply getHandlerPath_none_iff in Hhp.
Qed.

(** X9: a function whose runtime-name is not a key of [runtimeLookup] but
    names a member inherited from [Object.prototype] ([constructor],
    [toString], ...) is kept, whatever its handler reference, the files and
    the forced dialect, as a record whose type is that inherited built-in
    value, not [UNSUPPORTED]. *)
Theorem findHandlers_inherited_runtime existsSync service dR dN name fdef r b :
  (name, fdef) ∈ functions service ->
  effectiveRuntime fdef dR = Some r -> runtimeLookup !! r = None ->
  objectPrototypeMember r = Some b ->
  {| info_name := name; info_type := TypeBuiltin b; info_handler := name;
     info_runtime := Some r |} ∈ findHandlers existsSync service dR dN.
Proof.
  intros Hin Hrt Hr Hb. apply elem_of_findHandlers. exists name, fdef. split; [done|].
  unfold findHandler. rewrite Hrt. unfold runtimeLookupGet. rewrite Hr, Hb. simpl.
  repeat case_decide; try discriminate; reflexivity.
Qed.

(** X10: with no forced dialect and no [.ts] file, a [NODE] function whose
    module path has an [.es.js] or an [.mjs] sibling is classified
    [NODE_ES6]. *)
Theorem findHandlers_es6_files existsSync service dR name fdef r hp :
  (name, fdef) ∈ functions service ->
  effectiveRuntime fdef dR = Some r -> runtimeLookup !! r = Some NODE ->
  getHandlerPath fdef = Some hp ->
  (existsSync ("./" ++ filename hp ++ ".es.js") = true \/
   existsSync ("./" ++ filename hp ++ ".mjs") = true) ->
  existsSync ("./" ++ filename hp ++ ".ts") = false ->
  {| info_name := name; info_type := NODE_ES6; info_handler := name;
     info_runtime := Some r |} ∈ findHandlers existsSync service dR None.
Proof.
  intros Hin Hrt Hr Hhp Hes Hts. apply elem_of_findHandlers. exists name, fdef.
  split; [done|]. rewrite (findHandler_node _ _ _ _ _ _ _ _ Hrt Hr Hhp).
  rewrite Hts. destruct Hes as [He|He]; rewrite He; [done|].
  by rewrite orb_true_r.
Qed.

(** X11: with no forced dialect, no sibling file and no webpack plugin, a
    [NODE] function with a well-formed handler reference stays [NODE]. *)
Theorem findHandlers_plain_node existsSync service dR name fdef r hp :
  (name, fdef) ∈ functions service ->
  effectiveRuntime fdef dR = Some r -> runtimeLookup !! r = Some NODE ->
  getHandlerPath fdef = Some hp ->
  existsSync ("./" ++ filename hp ++ ".es.js") = false ->
  existsSync ("./" ++ filename hp ++ ".mjs") = false ->
  existsSync ("./" ++ filename hp ++ ".ts") = false ->
  hasWebpackPlugin service = false ->
  {| info_name := name; info_type := NODE; info_handler := name;
     info_runtime := Some r |} ∈ findHandlers existsSync service dR None.
Proof.
  intros Hin Hrt Hr Hhp Hes Hmjs Hts Hwp. apply elem_of_findHandlers. exists name, fdef.
  split; [done|]. rewrite (findHandler_node _ _ _ _ _ _ _ _ Hrt Hr Hhp).
  by rewrite Hes, Hmjs, Hts, Hwp.
Qed.

(* ------------------------------------------------------------------ *)
(** ** applyLayers: further properties *)

(** How one descriptor may evolve under [applyLayers]: same handler and
    runtime, and the old layer list is a prefix of the new one. *)
Lemma applyLayer_evolves bg rv heap h k :
  (heap !! k = None -> applyLayer bg rv heap h !! k = None) /\
  (forall fd, heap !! k = Some fd -> exists fd', applyLayer bg rv heap h !! k = Some fd' /\
     handler fd' = handler fd /\ runtime fd' = runtime fd /\ getLayers fd `prefix_of` getLayers fd').
Proof.
  destruct (decide (info_handler h = k)) as [<-|Hne].
  2: { rewrite !applyLayer_lookup_ne by done. split; [done|]. intros fd ->.
       eexists. split; [done|]. done. }
  unfold applyLayer. case_decide.
  { split; [done|]. intros fd Hfd. exists fd. split; [exact Hfd|]. done. }
  destruct (match info_runtime h with Some r => regionRuntimesGet bg rv r | None => None end)
    as [arn|].
  2: { split; [done|]. intros fd Hfd. exists fd. split; [exact Hfd|]. done. }
  destruct (heap !! info_handler h) as [fd0|] eqn:Hfd0; [|split; [done|]; congruence].
  split; [congruence|]. intros fd [= <-]. rewrite lookup_insert_eq. eexists. split; [done|].
  simpl. split; [done|]. split; [done|]. unfold getLayers at 2. simpl.
  destruct (set_has (getLayers fd0) arn); [done|]. by exists [arn].
Qed.

Lemma applyLayers_evolves bg region hs lj heap k :
  (heap !! k = None -> applyLayers bg region hs lj heap !! k = None) /\
  (forall fd, heap !! k = Some fd -> exists fd', applyLayers bg region hs lj heap !! k = Some fd' /\
     handler fd' = handler fd /\ runtime fd' = runtime fd /\ getLayers fd `prefix_of` getLayers fd').
Proof.
  unfold applyLayers. destruct (regionsGet lj region) as [rv|].
  2: { split; [done|]. intros fd Hfd. exists fd. split; [exact Hfd|]. done. }
  revert heap. induction hs as [|h hs IH]; intros heap.
  { split; [done|]. intros fd Hfd. exists fd. split; [exact Hfd|]. done. }
  simpl. destruct (applyLayer_evolves bg rv heap h k) as [Hn Hs].
  destruct (IH (applyLayer bg rv heap h)) as [IHn IHs]. split.
  - intros H. by apply IHn, Hn.
  - intros fd Hfd. destruct (Hs fd Hfd) as (fd1 & Hfd1 & Hh1 & Hr1 & Hp1).
    destruct (IHs fd1 Hfd1) as (fd2 & Hfd2 & Hh2 & Hr2 & Hp2).
    exists fd2. split; [done|]. split; [congruence|]. split; [congruence|].
    by transitivity (getLayers fd1).
Qed.

(** X12: [applyLayers] adds or removes no function and, of a descriptor, can
    only change the layer list: its handler and runtime stay as they were. *)
Theorem applyLayers_frame_fields bg region hs lj heap k :
  (heap !! k = None -> applyLayers bg region hs lj heap !! k = None) /\
  (forall fd, heap !! k = Some fd -> exists fd', applyLayers bg region hs lj heap !! k = Some fd' /\
     handler fd' = handler fd /\ runtime fd' = runtime fd).
Proof.
  destruct (applyLayers_evolves bg region hs lj heap k) as [Hn Hs]. split; [done|].
  intros fd Hfd. destruct (Hs fd Hfd) as (fd' & ? & ? & ? & _). eauto.
Qed.

(** X13: layer lists are append-only: the list a function had before
    [applyLayers] (the empty list when the field was absent) is a prefix of the
    list it has after. *)
Theorem applyLayers_append_only bg region hs lj heap k fd :
  heap !! k = Some fd ->
  exists fd', applyLayers bg region hs lj heap !! k = Some fd' /\
              getLayers fd `prefix_of` getLayers fd'.
Proof.
  intros Hfd. destruct (applyLayers_evolves bg region hs lj heap k) as [_ Hs].
  destruct (Hs fd Hfd) as (fd' & ? & _ & _ & ?). eauto.
Qed.

Lemma applyLayer_origin bg rv heap h k fd' x :
  applyLayer bg rv heap h !! k = Some fd' -> x ∈ getLayers fd' ->
  exists fd, heap !! k = Some fd /\
    (x ∈ getLayers fd \/
     (info_handler h = k /\ info_type h <> UNSUPPORTED /\
      exists r, info_runtime h = Some r /\ regionRuntimesGet bg rv r = Some x)).
Proof.
  intros Hk Hx. destruct (decide (info_handler h = k)) as [<-|Hne].
  2: { rewrite applyLayer_lookup_ne in Hk by done. eauto. }
  unfold applyLayer in Hk. case_decide as Hty; [eauto|].
  destruct (info_runtime h) as [r|] eqn:Hr; [|eauto].
  destruct (regionRuntimesGet bg rv r) as [arn|] eqn:Harn; [|eauto].
  destruct (heap !! info_handler h) as [fd0|] eqn:Hfd0; [|congruence].
  rewrite lookup_insert_eq in Hk. injection Hk as <-.
  exists fd0. split; [done|]. unfold getLayers at 1 in Hx. simpl in Hx.
  destruct (set_has (getLayers fd0) arn); [by left|].
  apply elem_of_app in Hx as [Hx|Hx]; [by left|].
  apply list_elem_of_singleton in Hx as ->. right. eauto.
Qed.

(** X14: every value in a layer list after [applyLayers] was already in that
    function's list, or is what [regionRuntimes[runtime]] reads (an own entry
    of the region's table or an inherited member) for the runtime-name of a
    supported record of that function. *)
Theorem applyLayers_layer_origin bg region hs lj heap k fd' x :
  applyLayers bg region hs lj heap !! k = Some fd' -> x ∈ getLayers fd' ->
  exists fd, heap !! k = Some fd /\
    (x ∈ getLayers fd \/
     exists rv h r, regionsGet lj region = Some rv /\ h ∈ hs /\ info_handler h = k /\
                    info_type h <> UNSUPPORTED /\ info_runtime h = Some r /\
                    regionRuntimesGet bg rv r = Some x).
Proof.
  unfold applyLayers. destruct (regionsGet lj region) as [rv|] eqn:Hrv; [|eauto].
  revert heap fd'. induction hs as [|h hs IH]; intros heap fd' Hk Hx; simpl in Hk; [eauto|].
  destruct (IH _ _ Hk Hx) as (fd1 & Hfd1 & [Hx1|(rv' & h' & r & Hrv' & Hh' & Hrest)]).
  - destruct (applyLayer_origin _ _ _ _ _ _ _ Hfd1 Hx1)
      as (fd & Hfd & [Hx0|(Hk' & Hty & r & Hr & Hx')]).
    + eauto.
    + exists fd. split; [done|]. right. exists rv, h, r. split; [done|].
      split; [by left|]. done.
  - destruct (applyLayer_evolves bg rv heap h k) as [Hn _].
    destruct (heap !! k) as [fd|] eqn:Hfd.
    + exists fd. split; [done|]. right. exists rv', h', r. split; [done|].
      split; [by right|]. done.
    + rewrite Hn in Hfd1 by done. discriminate.
Qed.

(** X19: what [applyLayers] merges for a supported record is whatever
    [regionRuntimes[runtime]] reads, an own entry of the region's table or a
    member inherited from [Object.prototype]: it is appended to the function's
    list ([[]] when the field was absent) unless already a member (one record
    per function). *)
Theorem applyLayers_append_read bg region hs lj heap h rv r v fd0 :
  NoDup (map info_handler hs) -> h ∈ hs ->
  regionsGet lj region = Some rv ->
  info_type h <> UNSUPPORTED -> info_runtime h = Some r ->
  regionRuntimesGet bg rv r = Some v ->
  heap !! info_handler h = Some fd0 ->
  applyLayers bg region hs lj heap !! info_handler h =
  Some (setLayers fd0 (if bool_decide (v ∈ getLayers fd0) then getLayers fd0
                       else (getLayers fd0 ++ [v])%list)).
Proof.
  intros Hnd Hh Hrv Hty Hr Hv Hfd. unfold applyLayers. rewrite Hrv.
  by apply (fold_applyLayer_at _ _ _ _ _ r).
Qed.

(* ------------------------------------------------------------------ *)
(** ** setEnvConfiguration and getConfig: further properties *)

Lemma setIfUndefined_lookup k' v e k :
  setIfUndefined k' v e !! k =
  if decide (k' = k) then match e !! k with Some x => Some x | None => Some v end
  else e !! k.
Proof.
  case_decide as Hk.
  - subst. unfold setIfUndefined. destruct (e !! k) eqn:Hk; [done|].
    by rewrite lookup_insert_eq.
  - by apply setIfUndefined_ne.
Qed.

(** X15: after [setEnvConfiguration] each environment key keeps its value when
    it had one; otherwise it holds the configured default for that key
    (DD_SITE, DD_LOG_LEVEL, DD_FLUSH_TO_LOG always; DD_API_KEY and
    DD_KMS_API_KEY only when the configuration has the key), and no other key
    gets a value. *)
Theorem setEnvConfiguration_lookup config service k :
  envOf (setEnvConfiguration config service) !! k =
  match envOf service !! k with
  | Some v => Some v
  | None => envDefault config k
  end.
Proof.
  unfold envOf, setEnvConfiguration. cbn [provider environment].
  generalize (match environment (provider service) with None => ∅ | Some e => e end) as e.
  intros e. unfold envDefault.
  destruct (apiKey config) as [ak|], (apiKMSKey config) as [kk|];
    rewrite !setIfUndefined_lookup;
    unfold apiKeyEnvVar, apiKeyKMSEnvVar, siteURLEnvVar, logLevelEnvVar, logForwardingEnvVar;
    repeat case_decide; subst;
    repeat match goal with |- context [String.eqb ?a ?b] => destruct (String.eqb_spec a b) end;
    subst; try congruence; destruct (e !! _); reflexivity.
Qed.

Lemma setEnvConfiguration_shape config service :
  setEnvConfiguration config service =
  {| provider := {| region := region (provider service);
                    environment := Some (envOf (setEnvConfiguration config service)) |};
     functions := functions service; plugins := plugins service |}.
Proof. reflexivity. Qed.

(** X16: [setEnvConfiguration] is idempotent: a second call with the same
    configuration changes nothing. *)
Theorem setEnvConfiguration_idempotent config service :
  setEnvConfiguration config (setEnvConfiguration config service)
  = setEnvConfiguration config service.
Proof.
  assert (Henv : envOf (setEnvConfiguration config (setEnvConfiguration config service))
                 = envOf (setEnvConfiguration config service)).
  { apply map_eq. intros k. rewrite !setEnvConfiguration_lookup.
    destruct (envOf service !! k); [done|]. by destruct (envDefault config k). }
  rewrite (setEnvConfiguration_shape config (setEnvConfiguration config service)), Henv.
  symmetry. exact (setEnvConfiguration_shape config service).
Qed.

(** X17: with no [custom.datadog] section, configuring the environment from
    [getConfig] sets neither API key, and gives DD_SITE, DD_LOG_LEVEL and
    DD_FLUSH_TO_LOG the defaults ["datadoghq.com"], ["info"] and [false] where
    they were undefined. *)
Theorem getConfig_default_environment (custom : option Custom) service :
  (custom = None \/ exists c, custom = Some c /\ datadog c = None) ->
  let env' := envOf (setEnvConfiguration (getConfig custom) service) in
  env' !! apiKeyEnvVar = envOf service !! apiKeyEnvVar /\
  env' !! apiKeyKMSEnvVar = envOf service !! apiKeyKMSEnvVar /\
  env' !! siteURLEnvVar =
    Some (default (JSString "datadoghq.com") (envOf service !! siteURLEnvVar)) /\
  env' !! logLevelEnvVar = Some (default (JSString "info") (envOf service !! logLevelEnvVar)) /\
  env' !! logForwardingEnvVar =
    Some (default (JSBool false) (envOf service !! logForwardingEnvVar)).
Proof.
  intros Hc env'. subst env'.
  assert (Hcfg : getConfig custom = defaultConfiguration)
    by (destruct Hc as [->|(c & -> & Hd)]; [|unfold getConfig; rewrite Hd]; reflexivity).
  rewrite Hcfg, !setEnvConfiguration_lookup.
  repeat split; destruct (envOf service !! _); reflexivity.
Qed.


(* ------------------------------------------------------------------ *)
(** ** removeDirectory *)

Lemma Node_ind_all (P : Node -> Prop) (HF : P FileNode)
  (HD : forall es, Forall (fun fc => P (snd fc)) es -> P (DirNode es)) : forall n, P n.
Proof.
  fix IH 1. intros [|es]; [exact HF|]. apply HD.
  induction es as [|[f c] es IHes]; constructor; [apply IH|exact IHes].
Qed.

Lemma removeTree_cons path f c es :
  removeTree path (DirNode ((f, c) :: es)) =
  match match c with
        | DirNode _ => removeTree (path ++ "/" ++ f) c
        | FileNode => Some [Unlink (path ++ "/" ++ f)]
        end with
  | None => None
  | Some o1 => match removeTree path (DirNode es) with
               | None => None
               | Some o2 => Some (o1 ++ o2)%list
               end
  end.
Proof.
  cbn [removeTree]. fold removeTree.
  destruct (match c with DirNode _ => removeTree (path ++ "/" ++ f) c
                        | FileNode => Some [Unlink (path ++ "/" ++ f)] end); [|done].
  match goal with |- context [?F es] => destruct (F es) end; simpl; [|done]. by rewrite app_assoc.
Qed.

Lemma node_calls_dir path es :
  node_calls path (DirNode es) = Rmdir path :: drop 1 (node_calls path (DirNode es)).
Proof. reflexivity. Qed.

Lemma node_calls_cons path f c es :
  drop 1 (node_calls path (DirNode ((f, c) :: es)))
  = (node_calls (path ++ "/" ++ f) c ++ drop 1 (node_calls path (DirNode es)))%list.
Proof. reflexivity. Qed.

Lemma removeTree_dir_calls :
  forall n path, match n with
  | FileNode => True
  | DirNode _ =>
      exists pre, removeTree path n = Some (pre ++ [Rmdir path])%list /\
        (pre ++ [Rmdir path])%list ≡ₚ node_calls path n /\
        forall o, o ∈ pre -> exists s, op_path o = (path ++ "/" ++ s)%string
  end.
Proof.
  refine (Node_ind_all (fun n => forall path, match n with
    | FileNode => True
    | DirNode _ =>
        exists pre, removeTree path n = Some (pre ++ [Rmdir path])%list /\
          (pre ++ [Rmdir path])%list ≡ₚ node_calls path n /\
          forall o, o ∈ pre -> exists s, op_path o = (path ++ "/" ++ s)%string
    end) (fun _ => I) _).
  intros es Hall path.
  induction es as [|[f c] es IHes].
  - exists []. split; [done|]. split; [done|]. intros o Ho. by apply elem_of_nil in Ho.
  - apply Forall_cons in Hall as [Hc Hall]. simpl in Hc.
    destruct (IHes Hall) as (pre & Hrm & Hperm & Hpaths).
    rewrite removeTree_cons, Hrm.
    assert (Hhere : exists o1, match c with
                      | DirNode _ => removeTree (path ++ "/" ++ f) c
                      | FileNode => Some [Unlink (path ++ "/" ++ f)]
                      end = Some o1 /\ o1 ≡ₚ node_calls (path ++ "/" ++ f) c /\
                      forall o, o ∈ o1 -> exists s, op_path o = (path ++ "/" ++ s)%string).
    { destruct c as [|es'].
      - exists [Unlink (path ++ "/" ++ f)]. split; [done|]. split; [done|].
        intros o ->%list_elem_of_singleton. by exists f.
      - destruct (Hc (path ++ "/" ++ f)) as (pre' & Hrm' & Hperm' & Hpaths').
        exists (pre' ++ [Rmdir (path ++ "/" ++ f)])%list. split; [done|].
        split; [done|].
        intros o [Ho|Ho%list_elem_of_singleton]%elem_of_app.
        + destruct (Hpaths' o Ho) as [s Hs]. exists (f ++ "/" ++ s)%string.
          rewrite Hs, <- !string_app_assoc. reflexivity.
        + subst o. by exists f. }
    destruct Hhere as (o1 & -> & Hperm1 & Hpaths1).
    exists (o1 ++ pre)%list. split; [by rewrite app_assoc|]. split.
    + rewrite node_calls_dir, node_calls_cons.
      assert (Hpre : pre ≡ₚ drop 1 (node_calls path (DirNode es))).
      { apply (Permutation_cons_inv (a := Rmdir path)).
        rewrite <- node_calls_dir, <- Hperm. apply Permutation_cons_append. }
      transitivity (Rmdir path :: (o1 ++ pre))%list.
      * symmetry. apply Permutation_cons_append.
      * constructor. by apply Permutation_app.
    + intros o [Ho|Ho]%elem_of_app; auto.
Qed.

(** X18: removing an existing directory succeeds, and the calls it makes are
    exactly one per node of the tree, in some order: an [unlink] of every
    non-directory entry and an [rmdir] of every directory, each at its path;
    every call is on a path below [path] except the last one, [rmdir(path)]
    itself. *)
Theorem removeDirectory_dir path es :
  exists pre, removeDirectory path (Some (DirNode es)) = Some (pre ++ [Rmdir path])%list /\
    (pre ++ [Rmdir path])%list ≡ₚ node_calls path (DirNode es) /\
    forall o, o ∈ pre -> exists s, op_path o = (path ++ "/" ++ s)%string.
Proof. exact (removeTree_dir_calls (DirNode es) path). Qed.

(* ------------------------------------------------------------------ *)
(** ** Witnesses for the further properties *)

Lemma getHandlerPath_roundtrip_witness :
  (filename {| method := "handler"; filename := "a.b" |} ++ "." ++
   method {| method := "handler"; filename := "a.b" |})%string
  = handler (mkFD "a.b.handler" None None).
Proof.
  apply (getHandlerPath_roundtrip (mkFD "a.b.handler" None None)
           {| method := "handler"; filename := "a.b" |}).
  vm_compute. reflexivity.
Defined.

Lemma getHandlerPath_method_nodot_witness :
  ~ In "."%char (list_ascii_of_string (method {| method := "handler"; filename := "a.b" |})).
Proof.
  apply (getHandlerPath_method_nodot (mkFD "a.b.handler" None None)
           {| method := "handler"; filename := "a.b" |}).
  vm_compute. reflexivity.
Defined.

Lemma findHandlers_record_origin_witness :
  exists fdef,
    (info_name (rec_f UNSUPPORTED None), fdef) ∈ functions
      {| provider := provider svc_test; functions := [("f", mkFD "index" None None)];
         plugins := None |} /\
    info_handler (rec_f UNSUPPORTED None) = info_name (rec_f UNSUPPORTED None) /\
    info_runtime (rec_f UNSUPPORTED None) = effectiveRuntime fdef None.
Proof.
  apply (findHandlers_record_origin no_files
           {| provider := provider svc_test; functions := [("f", mkFD "index" None None)];
              plugins := None |} None None (rec_f UNSUPPORTED None)).
  vm_compute. left.
Defined.

Lemma findHandlers_unsupported_iff_witness :
  info_type (rec_f (TypeBuiltin "Object") (Some "constructor")) = UNSUPPORTED <->
  info_runtime (rec_f (TypeBuiltin "Object") (Some "constructor")) = None \/
  exists r, info_runtime (rec_f (TypeBuiltin "Object") (Some "constructor")) = Some r /\
            runtimeLookup !! r = None /\ objectPrototypeMember r = None.
Proof.
  apply (findHandlers_unsupported_iff no_files svc_ctor None None
           (rec_f (TypeBuiltin "Object") (Some "constructor"))).
  - discriminate.
  - vm_compute. left.
Defined.

Lemma findHandlers_inherited_runtime_witness :
  {| info_name := "func-t"; info_type := TypeBuiltin "Object.prototype.toString";
     info_handler := "func-t"; info_runtime := Some "toString" |}
    ∈ findHandlers no_files
        {| provider := provider svc_test; functions := [("func-t", mkFD "index" (Some "toString") None)];
           plugins := None |} None (Some NODE_TS).
Proof.
  apply (findHandlers_inherited_runtime no_files
           {| provider := provider svc_test;
              functions := [("func-t", mkFD "index" (Some "toString") None)];
              plugins := None |} None (Some NODE_TS) "func-t" (mkFD "index" (Some "toString") None)
           "toString" "Object.prototype.toString").
  - by left.
  - reflexivity.
  - vm_compute. reflexivity.
  - vm_compute. reflexivity.
Defined.

Lemma findHandlers_forced_dialect_witness :
  {| info_name := "func-a"; info_type := NODE_TS; info_handler := "func-a";
     info_runtime := Some "nodejs10.x" |} ∈ findHandlers no_files svc_test None (Some NODE_TS).
Proof.
  apply (findHandlers_forced_dialect no_files svc_test None NODE_TS "func-a"
           (mkFD "mylambda.handler" (Some "nodejs10.x") None) "nodejs10.x").
  - apply list_elem_of_In. simpl. tauto.
  - reflexivity.
  - vm_compute. reflexivity.
  - simpl. tauto.
Defined.

Lemma findHandlers_es6_files_witness :
  {| info_name := "func-a"; info_type := NODE_ES6; info_handler := "func-a";
     info_runtime := Some "nodejs10.x" |}
    ∈ findHandlers (fun p => String.eqb p "./mylambda.mjs") svc_test None None.
Proof.
  apply (findHandlers_es6_files (fun p => String.eqb p "./mylambda.mjs") svc_test None "func-a"
           (mkFD "mylambda.handler" (Some "nodejs10.x") None) "nodejs10.x"
           {| method := "handler"; filename := "mylambda" |}).
  - apply list_elem_of_In. simpl. tauto.
  - reflexivity.
  - vm_compute. reflexivity.
  - vm_compute. reflexivity.
  - right. reflexivity.
  - reflexivity.
Defined.

Lemma findHandlers_plain_node_witness :
  {| info_name := "func-a"; info_type := NODE; info_handler := "func-a";
     info_runtime := Some "nodejs10.x" |}
    ∈ findHandlers no_files
        {| provider := provider svc_test; functions := functions svc_test; plugins := None |}
        None None.
Proof.
  apply (findHandlers_plain_node no_files
           {| provider := provider svc_test; functions := functions svc_test; plugins := None |}
           None "func-a" (mkFD "mylambda.handler" (Some "nodejs10.x") None) "nodejs10.x"
           {| method := "handler"; filename := "mylambda" |}).
  - apply list_elem_of_In. simpl. tauto.
  - reflexivity.
  - vm_compute. reflexivity.
  - vm_compute. reflexivity.
  - reflexivity.
  - reflexivity.
  - reflexivity.
  - reflexivity.
Defined.

Lemma applyLayers_frame_fields_witness :
  exists fd', applyLayers no_builtins "us-east-1" [rec_f NODE (Some "nodejs10.x")] layers_test
                (heap_f None) !! "f" = Some fd' /\
              handler fd' = handler (mkFD "h.h" (Some "nodejs10.x") None) /\
              runtime fd' = runtime (mkFD "h.h" (Some "nodejs10.x") None).
Proof.
  apply (proj2 (applyLayers_frame_fields no_builtins "us-east-1" [rec_f NODE (Some "nodejs10.x")]
                  layers_test (heap_f None) "f")).
  vm_compute. reflexivity.
Defined.

Lemma applyLayers_append_only_witness :
  exists fd', applyLayers no_builtins "us-east-1" [rec_f NODE (Some "nodejs10.x")] layers_test
                (heap_f (Some (arns ["node:1"]))) !! "f" = Some fd' /\
              getLayers (mkFD "h.h" (Some "nodejs10.x") (Some (arns ["node:1"]))) `prefix_of`
              getLayers fd'.
Proof.
  apply (applyLayers_append_only no_builtins "us-east-1" [rec_f NODE (Some "nodejs10.x")]
           layers_test (heap_f (Some (arns ["node:1"]))) "f").
  vm_compute. reflexivity.
Defined.

Lemma applyLayers_layer_origin_witness :
  exists fd, heap_ctor !! "f" = Some fd /\
    (LayerBuiltin "Object" ∈ getLayers fd \/
     exists rv h r, regionsGet layers_test "us-east-1" = Some rv /\
                    h ∈ [rec_f (TypeBuiltin "Object") (Some "constructor")] /\
                    info_handler h = "f" /\ info_type h <> UNSUPPORTED /\
                    info_runtime h = Some r /\
                    regionRuntimesGet no_builtins rv r = Some (LayerBuiltin "Object")).
Proof.
  apply (applyLayers_layer_origin no_builtins "us-east-1"
           [rec_f (TypeBuiltin "Object") (Some "constructor")] layers_test heap_ctor "f"
           (mkFD "h.handler" (Some "constructor") (Some [LayerBuiltin "Object"]))).
  - vm_compute. reflexivity.
  - by left.
Defined.

Lemma applyLayers_append_read_witness :
  applyLayers no_builtins "us-east-1" [rec_f (TypeBuiltin "Object") (Some "constructor")]
    layers_test heap_ctor !! "f"
  = Some (setLayers (mkFD "h.handler" (Some "constructor") None)
            (if bool_decide (LayerBuiltin "Object" ∈ ([] : list LayerValue)) then []
             else ([] ++ [LayerBuiltin "Object"])%list)).
Proof.
  apply (applyLayers_append_read no_builtins "us-east-1"
           [rec_f (TypeBuiltin "Object") (Some "constructor")] layers_test heap_ctor
           (rec_f (TypeBuiltin "Object") (Some "constructor"))
           (RegionTable {[ "nodejs10.x" := "node:2" ]}) "constructor").
  - simpl. repeat constructor. apply not_elem_of_nil.
  - by left.
  - vm_compute. reflexivity.
  - discriminate.
  - reflexivity.
  - vm_compute. reflexivity.
  - vm_compute. reflexivity.
Defined.

Lemma getConfig_default_environment_witness :
  envOf (setEnvConfiguration (getConfig None) svc_test) !! siteURLEnvVar
    = Some (default (JSString "datadoghq.com") (envOf svc_test !! siteURLEnvVar)).
Proof.
  apply (getConfig_default_environment None svc_test). by left.
Defined.
